(** * ElevenLabs text-to-speech adapter: a shallow embedding

    Source: [src/pipecat/services/elevenlabs.py].

    The module defines one pure function, [sample_rate_from_output_format],
    and one class, [ElevenLabsTTSService], whose methods mutate the adapter
    object ([set_model], [set_voice]) or stream audio from the vendor
    ([run_tts], an async generator).

    Strings are [string], byte chunks are [list byte], Python [int]s are [Z].
    Methods are written in a small monad that threads the adapter object,
    records every externally visible effect in a trace and propagates
    Python exceptions. *)

From Stdlib Require Import String Ascii List ZArith Bool Lia.
From Stdlib.Strings Require Import Byte.
From Stdlib.Numbers Require Import DecimalString.
Import ListNotations.

Open Scope string_scope.
Open Scope list_scope.
Open Scope Z_scope.

(** ** The output-format table *)

(** The [match] statement of [sample_rate_from_output_format] (lines 29-37):
    [Some r] when one of the four [case] arms returns [r], [None] when no
    arm matches and control falls out of the statement. *)
Definition match_output_format (output_format : string) : option Z :=
  if String.eqb output_format "pcm_16000" then Some 16000
  else if String.eqb output_format "pcm_22050" then Some 22050
  else if String.eqb output_format "pcm_24000" then Some 24000
  else if String.eqb output_format "pcm_44100" then Some 44100
  else None.

(** Lines 28-38: the [match], then the trailing [return 16000]. *)
Definition sample_rate_from_output_format (output_format : string) : Z :=
  match match_output_format output_format with
  | Some rate => rate
  | None => 16000
  end.

(** The four values of the [Literal] annotation on line 42. *)
Definition output_format_literals : list string :=
  ["pcm_16000"; "pcm_22050"; "pcm_24000"; "pcm_44100"].

Definition recognized (output_format : string) : bool :=
  existsb (String.eqb output_format) output_format_literals.

(** ** Exceptions and results *)

(** A Python exception value: its class name and its message. *)
Record Exception : Type := mkException {
  exc_type : string;
  exc_msg : string
}.

Inductive Result (A : Type) : Type :=
| Returned (a : A)
| Raised (e : Exception).
Arguments Returned {A} a.
Arguments Raised {A} e.

(** ** [InputParams] (lines 41-42)

    A pydantic model with one field.  Building it through the class
    validates the field against the [Literal] annotation; leaving the
    argument out takes the default. *)
Record InputParams : Type := mkInputParams {
  output_format : string
}.

Definition ValidationError (field : string) : Exception :=
  {| exc_type := "ValidationError"; exc_msg := field |}.

Definition InputParams_new (arg : option string) : Result InputParams :=
  match arg with
  | None => Returned {| output_format := "pcm_16000" |}
  | Some s =>
      if recognized s then Returned {| output_format := s |}
      else Raised (ValidationError "output_format")
  end.

(** ** Frames (imported from [pipecat.frames.frames], line 12) *)

Definition bytes : Type := list byte.

Inductive Frame : Type :=
| AudioRawFrame (audio : bytes) (sample_rate : Z) (num_channels : Z)
| TTSStartedFrame
| TTSStoppedFrame.

(** ** The vendor client

    [AsyncElevenLabs] and [VoiceSettings] belong to the vendor SDK.  The
    client is the credential it was built with; the voice settings are a
    type the adapter only stores and passes on. *)
Record AsyncElevenLabs : Type := mkAsyncElevenLabs {
  api_key : string
}.

(** What iterating the awaited result of [generate] does: deliver a chunk
    and go on, end, or raise.  Streams that never end are not covered. *)
Inductive AsyncIterator : Type :=
| Next (audio : bytes) (rest : AsyncIterator)
| StopAsyncIteration
| RaiseInStream (e : Exception).

Fixpoint delivered (results : AsyncIterator) : list bytes :=
  match results with
  | Next audio rest => audio :: delivered rest
  | StopAsyncIteration => []
  | RaiseInStream _ => []
  end.

Fixpoint stream_error (results : AsyncIterator) : option Exception :=
  match results with
  | Next _ rest => stream_error rest
  | StopAsyncIteration => None
  | RaiseInStream e => Some e
  end.

(** The stream that delivers [chunks] and then ends normally. *)
Fixpoint stream_of (chunks : list bytes) : AsyncIterator :=
  match chunks with
  | [] => StopAsyncIteration
  | audio :: rest => Next audio (stream_of rest)
  end.

(** The stream that delivers [chunks] and then raises [e]. *)
Fixpoint failing_stream (chunks : list bytes) (e : Exception) : AsyncIterator :=
  match chunks with
  | [] => RaiseInStream e
  | audio :: rest => Next audio (failing_stream rest e)
  end.

Inductive GenerateResult : Type :=
| GenerateReturns (results : AsyncIterator)
| GenerateRaises (e : Exception).

Section Adapter.

Context {VoiceSettings : Type}.

(** The keyword arguments of [self._client.generate] (lines 81-89). *)
Record GenerateRequest : Type := mkGenerateRequest {
  req_text : string;
  req_voice : string;
  req_model : string;
  req_output_format : string;
  req_voice_settings : option VoiceSettings;
  req_optimize_streaming_latency : Z;
  req_stream : bool
}.

(** How the vendor answers one [generate] call on a given client. *)
Definition Vendor : Type := AsyncElevenLabs -> GenerateRequest -> GenerateResult.

(** ** The adapter object: the fields assigned on lines 56-62 *)
Record ElevenLabsTTSService : Type := mkElevenLabsTTSService {
  _voice_id : string;
  _model : string;
  _params : InputParams;
  _voice_settings : option VoiceSettings;
  _client : AsyncElevenLabs;
  _optimize_streaming_latency : Z;
  _sample_rate : Z
}.

(** ** Effects

    Every call that leaves the method body is recorded, in program order.
    The metric and [push_frame] methods are inherited from [TTSService];
    the trace records that they were called and with what, and they are
    taken to return.  [EvChunk] marks the [async for] receiving a chunk
    from the vendor stream, [EvYield] a frame handed to the caller. *)
Inductive Event : Type :=
| EvLogDebug (msg : string)
| EvStartTtsUsageMetrics (text : string)
| EvStartTtfbMetrics
| EvStopTtfbMetrics
| EvGenerate (client : AsyncElevenLabs) (req : GenerateRequest)
| EvChunk (audio : bytes)
| EvPushFrame (f : Frame)
| EvYield (f : Frame).

Definition M (A : Type) : Type :=
  ElevenLabsTTSService -> list Event * ElevenLabsTTSService * Result A.

Definition ret {A : Type} (a : A) : M A :=
  fun self => ([], self, Returned a).

Definition bind {A B : Type} (m : M A) (k : A -> M B) : M B :=
  fun self =>
    match m self with
    | (t1, self1, Returned a) =>
        match k a self1 with
        | (t2, self2, r) => (t1 ++ t2, self2, r)
        end
    | (t1, self1, Raised e) => (t1, self1, Raised e)
    end.

Definition raise {A : Type} (e : Exception) : M A :=
  fun self => ([], self, Raised e).

Definition emit (ev : Event) : M unit :=
  fun self => ([ev], self, Returned tt).

Definition get_self : M ElevenLabsTTSService :=
  fun self => ([], self, Returned self).

Definition put_self (self' : ElevenLabsTTSService) : M unit :=
  fun _ => ([], self', Returned tt).

Notation "x <- m ;; k" := (bind m (fun x => k))
  (at level 61, m at next level, right associativity).
Notation "m ;; k" := (bind m (fun _ => k))
  (at level 61, right associativity).

Definition trace_of {A : Type} (o : list Event * ElevenLabsTTSService * Result A)
  : list Event := fst (fst o).
Definition self_of {A : Type} (o : list Event * ElevenLabsTTSService * Result A)
  : ElevenLabsTTSService := snd (fst o).
Definition result_of {A : Type} (o : list Event * ElevenLabsTTSService * Result A)
  : Result A := snd o.

(** Calls into the logger, the base class and the vendor client. *)
Definition logger_debug (msg : string) : M unit := emit (EvLogDebug msg).
Definition start_tts_usage_metrics (text : string) : M unit :=
  emit (EvStartTtsUsageMetrics text).
Definition start_ttfb_metrics : M unit := emit EvStartTtfbMetrics.
Definition stop_ttfb_metrics : M unit := emit EvStopTtfbMetrics.
Definition push_frame (f : Frame) : M unit := emit (EvPushFrame f).
Definition yield (f : Frame) : M unit := emit (EvYield f).

Definition generate (vendor : Vendor) (client : AsyncElevenLabs)
  (req : GenerateRequest) : M AsyncIterator :=
  emit (EvGenerate client req) ;;
  match vendor client req with
  | GenerateReturns results => ret results
  | GenerateRaises e => raise e
  end.

(** ** The class *)

(** [__init__] (lines 44-62); [None] for a keyword left at its default. *)
Definition __init__ (api_key : string) (voice_id : string)
  (model : option string) (voice_settings : option VoiceSettings)
  (params : option InputParams) (optimize_streaming_latency : option Z)
  : ElevenLabsTTSService :=
  let model := match model with Some m => m | None => "eleven_turbo_v2_5" end in
  let params :=
    match params with Some p => p | None => {| output_format := "pcm_16000" |} end in
  let optimize_streaming_latency :=
    match optimize_streaming_latency with Some n => n | None => 0 end in
  {| _voice_id := voice_id;
     _model := model;
     _params := params;
     _voice_settings := voice_settings;
     _client := {| api_key := api_key |};
     _optimize_streaming_latency := optimize_streaming_latency;
     _sample_rate := sample_rate_from_output_format (output_format params) |}.

(** Lines 64-65. *)
Definition can_generate_metrics : M bool := ret true.

(** Lines 67-69. *)
Definition set_model (model : string) : M unit :=
  logger_debug ("Switching TTS model to: [" ++ model ++ "]")%string ;;
  self <- get_self ;;
  put_self {| _voice_id := _voice_id self;
              _model := model;
              _params := _params self;
              _voice_settings := _voice_settings self;
              _client := _client self;
              _optimize_streaming_latency := _optimize_streaming_latency self;
              _sample_rate := _sample_rate self |}.

(** Lines 71-73. *)
Definition set_voice (voice : string) : M unit :=
  logger_debug ("Switching TTS voice to: [" ++ voice ++ "]")%string ;;
  self <- get_self ;;
  put_self {| _voice_id := voice;
              _model := _model self;
              _params := _params self;
              _voice_settings := _voice_settings self;
              _client := _client self;
              _optimize_streaming_latency := _optimize_streaming_latency self;
              _sample_rate := _sample_rate self |}.

(** The body of the [async for] loop for one chunk (lines 93-100), up to
    and including the [yield]; returns the flag [tts_started] as the body
    leaves it. *)
Definition loop_body (audio : bytes) (tts_started : bool) : M (Frame * bool) :=
  tts_started <-
    (if negb tts_started
     then push_frame TTSStartedFrame ;; ret true
     else ret tts_started) ;;
  stop_ttfb_metrics ;;
  self <- get_self ;;
  let frame := AudioRawFrame audio (_sample_rate self) 1 in
  yield frame ;;
  ret (frame, tts_started).

(** The [async for] loop (lines 92-100), run until the stream ends or
    raises. *)
Fixpoint for_audio_in (results : AsyncIterator) (tts_started : bool) : M unit :=
  match results with
  | Next audio rest =>
      emit (EvChunk audio) ;;
      r <- loop_body audio tts_started ;;
      for_audio_in rest (snd r)
  | StopAsyncIteration => ret tt
  | RaiseInStream e => raise e
  end.

(** The keyword arguments built on lines 82-88. *)
Definition generate_kwargs (self : ElevenLabsTTSService) (text : string)
  : GenerateRequest :=
  {| req_text := text;
     req_voice := _voice_id self;
     req_model := _model self;
     req_output_format := output_format (_params self);
     req_voice_settings := _voice_settings self;
     req_optimize_streaming_latency := _optimize_streaming_latency self;
     req_stream := true |}.

(** Lines 76-89: everything before the loop. *)
Definition request_stream (vendor : Vendor) (text : string) : M AsyncIterator :=
  logger_debug ("Generating TTS: [" ++ text ++ "]")%string ;;
  start_tts_usage_metrics text ;;
  start_ttfb_metrics ;;
  self <- get_self ;;
  generate vendor (_client self) (generate_kwargs self text).

(** [run_tts] (lines 75-102), with the generator consumed to its end by
    one caller and nothing else touching the adapter meanwhile. *)
Definition run_tts (vendor : Vendor) (text : string) : M unit :=
  results <- request_stream vendor text ;;
  for_audio_in results false ;;
  push_frame TTSStoppedFrame.

(** ** The generator object

    Calling [run_tts(text)] runs none of the body: it makes a generator,
    and each [__anext__] runs the body from where it stopped to the next
    [yield], to the end, or to an exception.  Between two resumptions the
    caller may call any other method of the adapter; a resumption itself
    is one step. *)
Inductive Generator : Type :=
| NotStarted (vendor : Vendor) (text : string)
| AtYield (rest : AsyncIterator) (tts_started : bool)
| Closed.

(** From the head of the [async for] to the next suspension (lines 92-102).
    [None] is the generator's own end of iteration. *)
Definition loop_head (results : AsyncIterator) (tts_started : bool)
  : M (option Frame * Generator) :=
  match results with
  | Next audio rest =>
      emit (EvChunk audio) ;;
      r <- loop_body audio tts_started ;;
      ret (Some (fst r), AtYield rest (snd r))
  | StopAsyncIteration =>
      push_frame TTSStoppedFrame ;;
      ret (None, Closed)
  | RaiseInStream e => raise e
  end.

Definition __anext__ (g : Generator) : M (option Frame * Generator) :=
  match g with
  | NotStarted vendor text =>
      results <- request_stream vendor text ;;
      loop_head results false
  | AtYield rest tts_started => loop_head rest tts_started
  | Closed => ret (None, Closed)
  end.

(** A caller that iterates the generator to its end, at most [fuel]
    resumptions; [false] when the fuel ran out first. *)
Fixpoint drain (fuel : nat) (g : Generator) : M bool :=
  match fuel with
  | O => ret false
  | S fuel' =>
      r <- __anext__ g ;;
      match fst r with
      | None => ret true
      | Some _ => drain fuel' (snd r)
      end
  end.

(** ** The adapter's lifetime

    The public operations a caller can perform on one adapter, in any
    order; several generators may be in flight at once, and other calls
    may come between two resumptions of the same generator.  [CallRunTts]
    makes a generator and appends it to the session, [CallAnext i] resumes
    the [i]-th one; an exception out of a resumption goes to the caller
    and leaves that generator closed. *)
Inductive Call : Type :=
| CallCanGenerateMetrics
| CallSetModel (model : string)
| CallSetVoice (voice : string)
| CallRunTts (vendor : Vendor) (text : string)
| CallAnext (i : nat).

Record Session : Type := mkSession {
  adapter : ElevenLabsTTSService;
  generators : list Generator
}.

Fixpoint set_nth {A : Type} (i : nat) (x : A) (l : list A) : list A :=
  match l, i with
  | [], _ => []
  | _ :: l', O => x :: l'
  | y :: l', S i' => y :: set_nth i' x l'
  end.

Definition step (c : Call) (w : Session) : list Event * Session :=
  match c with
  | CallCanGenerateMetrics =>
      match can_generate_metrics (adapter w) with
      | (t, self', _) => (t, {| adapter := self'; generators := generators w |})
      end
  | CallSetModel model =>
      match set_model model (adapter w) with
      | (t, self', _) => (t, {| adapter := self'; generators := generators w |})
      end
  | CallSetVoice voice =>
      match set_voice voice (adapter w) with
      | (t, self', _) => (t, {| adapter := self'; generators := generators w |})
      end
  | CallRunTts vendor text =>
      ([], {| adapter := adapter w;
              generators := generators w ++ [NotStarted vendor text] |})
  | CallAnext i =>
      match nth_error (generators w) i with
      | None => ([], w)
      | Some g =>
          match __anext__ g (adapter w) with
          | (t, self', Returned r) =>
              (t, {| adapter := self';
                     generators := set_nth i (snd r) (generators w) |})
          | (t, self', Raised _) =>
              (t, {| adapter := self';
                     generators := set_nth i Closed (generators w) |})
          end
      end
  end.

Fixpoint lifetime (calls : list Call) (w : Session) : list Event * Session :=
  match calls with
  | [] => ([], w)
  | c :: rest =>
      match step c w with
      | (t1, w1) =>
          match lifetime rest w1 with
          | (t2, w2) => (t1 ++ t2, w2)
          end
      end
  end.

(** ** Reading a trace *)

(** The frames a trace hands downstream, [push_frame] and [yield]
    together, in order. *)
Definition emitted_frame (ev : Event) : list Frame :=
  match ev with
  | EvPushFrame f => [f]
  | EvYield f => [f]
  | _ => []
  end.

Definition emitted (t : list Event) : list Frame := flat_map emitted_frame t.

Definition yielded_frame (ev : Event) : list Frame :=
  match ev with
  | EvYield f => [f]
  | _ => []
  end.

Definition yielded (t : list Event) : list Frame := flat_map yielded_frame t.

Definition is_stop_ttfb (ev : Event) : bool :=
  match ev with
  | EvStopTtfbMetrics => true
  | _ => false
  end.

Definition count_stop_ttfb (t : list Event) : nat :=
  length (filter is_stop_ttfb t).

Definition is_generate (ev : Event) : bool :=
  match ev with
  | EvGenerate _ _ => true
  | _ => false
  end.

Definition is_started (f : Frame) : bool :=
  match f with
  | TTSStartedFrame => true
  | _ => false
  end.

Definition is_stopped (f : Frame) : bool :=
  match f with
  | TTSStoppedFrame => true
  | _ => false
  end.

Definition is_audio (f : Frame) : bool :=
  match f with
  | AudioRawFrame _ _ _ => true
  | _ => false
  end.

Definition is_marker_or_audio_at (rate : Z) (f : Frame) : Prop :=
  match f with
  | AudioRawFrame _ r n => r = rate /\ n = 1
  | _ => True
  end.

(** The audio frame the adapter makes of a chunk. *)
Definition audio_frame (rate : Z) (audio : bytes) : Frame :=
  AudioRawFrame audio rate 1.

(** What the vendor does in the call [run_tts] makes for [text] on [self]:
    the chunks it delivers and the exception it ends with, if any. *)
Definition vendor_chunks (vendor : Vendor) (self : ElevenLabsTTSService)
  (text : string) : list bytes :=
  match vendor (_client self) (generate_kwargs self text) with
  | GenerateReturns results => delivered results
  | GenerateRaises _ => []
  end.

Definition vendor_error (vendor : Vendor) (self : ElevenLabsTTSService)
  (text : string) : option Exception :=
  match vendor (_client self) (generate_kwargs self text) with
  | GenerateReturns results => stream_error results
  | GenerateRaises e => Some e
  end.

(** The events of lines 76-89. *)
Definition request_events (self : ElevenLabsTTSService) (text : string)
  : list Event :=
  [ EvLogDebug ("Generating TTS: [" ++ text ++ "]")%string;
    EvStartTtsUsageMetrics text;
    EvStartTtfbMetrics;
    EvGenerate (_client self) (generate_kwargs self text) ].

(** The events of one turn of the loop, and of a run of turns. *)
Definition chunk_events (rate : Z) (tts_started : bool) (audio : bytes)
  : list Event :=
  EvChunk audio
  :: (if tts_started then [] else [EvPushFrame TTSStartedFrame])
  ++ [EvStopTtfbMetrics; EvYield (audio_frame rate audio)].

Fixpoint stream_events (rate : Z) (tts_started : bool) (chunks : list bytes)
  : list Event :=
  match chunks with
  | [] => []
  | audio :: rest =>
      chunk_events rate tts_started audio ++ stream_events rate true rest
  end.

Definition stream_result (results : AsyncIterator) : Result unit :=
  match stream_error results with
  | None => Returned tt
  | Some e => Raised e
  end.

(** ** Sample inputs *)

Definition sample_service : ElevenLabsTTSService :=
  __init__ "key" "voice-1" None None
    (Some {| output_format := "pcm_24000" |}) None.

Definition chunk1 : bytes := [x01; x02].
Definition chunk2 : bytes := [x03].
Definition chunk3 : bytes := [x04; x05; x06].

Definition boom : Exception :=
  {| exc_type := "ApiError"; exc_msg := "rate limited" |}.

Definition vendor_of (results : AsyncIterator) : Vendor :=
  fun _ _ => GenerateReturns results.

Definition refusing_vendor : Vendor :=
  fun _ _ => GenerateRaises boom.

(** ** More ways to read a trace *)

(** The vendor requests of a trace, each with the client it went through. *)
Definition generate_call (ev : Event) : list (AsyncElevenLabs * GenerateRequest) :=
  match ev with
  | EvGenerate client req => [(client, req)]
  | _ => []
  end.

Definition generate_calls (t : list Event)
  : list (AsyncElevenLabs * GenerateRequest) := flat_map generate_call t.

Definition is_start_metrics (ev : Event) : bool :=
  match ev with
  | EvStartTtsUsageMetrics _ => true
  | EvStartTtfbMetrics => true
  | _ => false
  end.

(** The part of a request that [set_model] and [set_voice] cannot reach:
    the client, the output format, the voice settings, the latency level
    and the streaming flag, as they are in [self]. *)
Definition request_fixed_part (self : ElevenLabsTTSService)
  (call : AsyncElevenLabs * GenerateRequest) : Prop :=
  fst call = _client self /\
  req_output_format (snd call) = output_format (_params self) /\
  req_voice_settings (snd call) = _voice_settings self /\
  req_optimize_streaming_latency (snd call) = _optimize_streaming_latency self /\
  req_stream (snd call) = true.

(** ** The time-to-first-byte telemetry *)



End Adapter.

(** ** Loading the module (lines 7-25)

    The import statements run in order when the module is loaded.  What
    importing from a given module raises, if anything, is the
    environment's; the last import is guarded by a [try] that catches
    [ModuleNotFoundError] alone. *)
Definition ImportEnv : Type := string -> option Exception.

(** The exception classes of the running interpreter: for a class name,
    the names of the classes it derives from, directly or not.
    [isinstance] is Python's test of an exception against a class: the
    exception's own class or one of its ancestors. *)
Definition ClassTable : Type := string -> list string.

Definition isinstance (classes : ClassTable) (e : Exception) (cls : string)
  : bool :=
  String.eqb (exc_type e) cls
  || existsb (String.eqb cls) (classes (exc_type e)).

Inductive LoadEvent : Type :=
| EvImport (module : string)
| EvLogError (msg : string).

Definition Load (A : Type) : Type := list LoadEvent * Result A.

Definition load_bind {A B : Type} (m : Load A) (k : A -> Load B) : Load B :=
  match m with
  | (t1, Returned a) =>
      match k a with
      | (t2, r) => (t1 ++ t2, r)
      end
  | (t1, Raised e) => (t1, Raised e)
  end.

Definition import_from (env : ImportEnv) (module : string) : Load unit :=
  ([EvImport module],
   match env module with
   | None => Returned tt
   | Some e => Raised e
   end).

Definition logger_error (msg : string) : Load unit :=
  ([EvLogError msg], Returned tt).

(** [try: body except ModuleNotFoundError as e: handler]: the handler
    takes an exception that is a [ModuleNotFoundError], of that class or of
    a subclass; any other passes through. *)
Definition try_except_ModuleNotFoundError {A : Type} (classes : ClassTable)
  (body : Load A) (handler : Exception -> Load A) : Load A :=
  match body with
  | (t1, Raised e) =>
      if isinstance classes e "ModuleNotFoundError"
      then match handler e with
           | (t2, r) => (t1 ++ t2, r)
           end
      else (t1, Raised e)
  | (t1, Returned a) => (t1, Returned a)
  end.

(** The imports outside the [try], in line order (lines 7-15). *)
Definition plain_imports : list string :=
  [ "typing";
    "elevenlabs";
    "pydantic";
    "pipecat.frames.frames";
    "pipecat.services.ai_services";
    "loguru" ].

Fixpoint import_all (env : ImportEnv) (modules : list string) : Load unit :=
  match modules with
  | [] => ([], Returned tt)
  | module :: rest =>
      load_bind (import_from env module) (fun _ => import_all env rest)
  end.

Definition install_hint : string :=
  "In order to use ElevenLabs, you need to `pip install pipecat-ai[elevenlabs]`. Also, set `ELEVENLABS_API_KEY` environment variable.".

(** Lines 18-25. *)
Definition import_client (classes : ClassTable) (env : ImportEnv) : Load unit :=
  try_except_ModuleNotFoundError classes
    (import_from env "elevenlabs.client")
    (fun e =>
       load_bind (logger_error ("Exception: " ++ exc_msg e)%string) (fun _ =>
       load_bind (logger_error install_hint) (fun _ =>
       ([], Raised {| exc_type := "Exception";
                      exc_msg := ("Missing module: " ++ exc_msg e)%string |})))).

(** Lines 7-25; the [def] and [class] statements that follow bind names
    and raise nothing. *)
Definition load_module (classes : ClassTable) (env : ImportEnv) : Load unit :=
  load_bind (import_all env plain_imports) (fun _ => import_client classes env).

Definition error_logs (t : list LoadEvent) : list string :=
  flat_map (fun ev => match ev with EvLogError msg => [msg] | _ => [] end) t.

(** The first of [modules] whose import raises, with what it raises. *)
Fixpoint first_failure (env : ImportEnv) (modules : list string)
  : option Exception :=
  match modules with
  | [] => None
  | module :: rest =>
      match env module with
      | Some e => Some e
      | None => first_failure env rest
      end
  end.

(** The import errors of the standard library: [ModuleNotFoundError]
    derives from [ImportError], and [importlib.metadata]'s
    [PackageNotFoundError] from [ModuleNotFoundError]. *)
Definition standard_classes : ClassTable :=
  fun cls =>
    if String.eqb cls "PackageNotFoundError"
    then ["ModuleNotFoundError"; "ImportError"; "Exception"; "BaseException"]
    else if String.eqb cls "ModuleNotFoundError"
    then ["ImportError"; "Exception"; "BaseException"]
    else if String.eqb cls "ImportError"
    then ["Exception"; "BaseException"]
    else if String.eqb cls "Exception"
    then ["BaseException"]
    else [].

Definition client_metadata_missing : ImportEnv :=
  fun module =>
    if String.eqb module "elevenlabs.client"
    then Some {| exc_type := "PackageNotFoundError";
                 exc_msg := "No package metadata was found for elevenlabs" |}
    else None.

Definition client_name_missing : ImportEnv :=
  fun module =>
    if String.eqb module "elevenlabs.client"
    then Some {| exc_type := "ImportError";
                 exc_msg := "cannot import name 'AsyncElevenLabs'" |}
    else None.

(** Two environments: the SDK without its [client] submodule, and no SDK
    at all. *)
Definition client_module_missing : ImportEnv :=
  fun module =>
    if String.eqb module "elevenlabs.client"
    then Some {| exc_type := "ModuleNotFoundError";
                 exc_msg := "No module named 'elevenlabs.client'" |}
    else None.

Definition package_missing : ImportEnv :=
  fun module =>
    if String.eqb module "elevenlabs"
    then Some {| exc_type := "ModuleNotFoundError";
                 exc_msg := "No module named 'elevenlabs'" |}
    else None.

(** ** Decimal notation of a sample rate, as [str] prints an [int] *)
Definition str (n : Z) : string := NilZero.string_of_int (Z.to_int n).

(** * Properties *)

(** ** The output-format table *)

Lemma recognized_In (s : string) :
  recognized s = true <-> In s output_format_literals.
Proof.
  unfold recognized. rewrite existsb_exists. split.
  - intros [x [Hx Heq]]. apply String.eqb_eq in Heq. now subst.
  - intros H. exists s. split; [exact H | apply String.eqb_refl].
Qed.

Lemma match_output_format_recognized (s : string) :
  In s output_format_literals -> match_output_format s <> None.
Proof.
  simpl. intros [H | [H | [H | [H | []]]]]; subst; discriminate.
Qed.

Lemma match_output_format_None (s : string) :
  ~ In s output_format_literals -> match_output_format s = None.
Proof.
  simpl. intros H. unfold match_output_format.
  repeat match goal with
         | |- context [String.eqb ?a ?b] =>
             destruct (String.eqb_spec a b) as [-> | _]; [exfalso; tauto | ]
         end.
  reflexivity.
Qed.

(** C4: each of the four recognized output-format strings maps to the
    sample rate in its name. *)
Theorem sample_rate_of_recognized_formats :
  sample_rate_from_output_format "pcm_16000" = 16000 /\
  sample_rate_from_output_format "pcm_22050" = 22050 /\
  sample_rate_from_output_format "pcm_24000" = 24000 /\
  sample_rate_from_output_format "pcm_44100" = 44100.
Proof. repeat split; reflexivity. Qed.

(** C5: on any string other than the four recognized ones the function
    returns 16000; it is total, so there is no error to signal. *)
Theorem sample_rate_of_unrecognized_format (s : string) :
  ~ In s ["pcm_16000"; "pcm_22050"; "pcm_24000"; "pcm_44100"] ->
  match_output_format s = None /\
  sample_rate_from_output_format s = 16000.
Proof.
  intros H. pose proof (match_output_format_None s H) as E.
  split; [exact E | ]. unfold sample_rate_from_output_format. now rewrite E.
Qed.

Section AdapterFacts.

Context {VoiceSettings : Type}.

Implicit Types (self : @ElevenLabsTTSService VoiceSettings).
Implicit Types (vendor : @Vendor VoiceSettings).
Implicit Types (results : AsyncIterator) (chunks : list bytes).
Implicit Types (t : list (@Event VoiceSettings)).

(** ** What each piece of [run_tts] computes *)

Lemma loop_body_run audio (tts_started : bool) self :
  loop_body audio tts_started self =
  ((if tts_started then [] else [EvPushFrame TTSStartedFrame])
   ++ [EvStopTtfbMetrics; EvYield (audio_frame (_sample_rate self) audio)],
   self,
   Returned (audio_frame (_sample_rate self) audio, true)).
Proof. destruct tts_started; reflexivity. Qed.

Lemma for_audio_in_run results : forall (tts_started : bool) self,
  for_audio_in results tts_started self =
  (stream_events (_sample_rate self) tts_started (delivered results),
   self,
   stream_result results).
Proof.
  induction results as [audio rest IH | | e]; intros tts_started self.
  - cbn [for_audio_in delivered stream_events].
    unfold bind at 1. cbn [emit].
    unfold bind at 1. rewrite loop_body_run. cbn [snd].
    rewrite IH. unfold chunk_events, stream_result. cbn [stream_error app].
    rewrite <- app_assoc. reflexivity.
  - reflexivity.
  - reflexivity.
Qed.

Lemma request_stream_run vendor text self :
  request_stream vendor text self =
  (request_events self text,
   self,
   match vendor (_client self) (generate_kwargs self text) with
   | GenerateReturns results => Returned results
   | GenerateRaises e => Raised e
   end).
Proof.
  unfold request_stream, generate, bind, logger_debug, start_tts_usage_metrics,
    start_ttfb_metrics, get_self, emit, request_events.
  cbn. destruct (vendor _ _); reflexivity.
Qed.

(** The whole of [run_tts] in closed form. *)
Lemma run_tts_run vendor text self :
  run_tts vendor text self =
  (request_events self text
   ++ stream_events (_sample_rate self) false (vendor_chunks vendor self text)
   ++ match vendor_error vendor self text with
      | None => [EvPushFrame TTSStoppedFrame]
      | Some _ => []
      end,
   self,
   match vendor_error vendor self text with
   | None => Returned tt
   | Some e => Raised e
   end).
Proof.
  unfold run_tts. unfold bind at 1. rewrite request_stream_run.
  unfold vendor_chunks, vendor_error.
  destruct (vendor _ _) as [results | e].
  - unfold bind at 1. rewrite for_audio_in_run. unfold stream_result.
    destruct (stream_error results) as [e | ].
    + rewrite app_nil_r. reflexivity.
    + unfold push_frame, emit. reflexivity.
  - cbn [stream_events]. rewrite app_nil_r. reflexivity.
Qed.

(** ** Reading the closed form *)

Lemma emitted_app t1 t2 : emitted (t1 ++ t2) = emitted t1 ++ emitted t2.
Proof. apply flat_map_app. Qed.

Lemma yielded_app t1 t2 : yielded (t1 ++ t2) = yielded t1 ++ yielded t2.
Proof. apply flat_map_app. Qed.

Lemma count_stop_ttfb_app t1 t2 :
  count_stop_ttfb (t1 ++ t2) = (count_stop_ttfb t1 + count_stop_ttfb t2)%nat.
Proof. unfold count_stop_ttfb. now rewrite filter_app, length_app. Qed.

Lemma emitted_stream_events_started rate chunks :
  emitted (@stream_events VoiceSettings rate true chunks)
  = map (audio_frame rate) chunks.
Proof.
  induction chunks as [ | audio rest IH]; [reflexivity | ].
  cbn [stream_events]. rewrite emitted_app, IH. reflexivity.
Qed.

Lemma emitted_stream_events_fresh rate audio rest :
  emitted (@stream_events VoiceSettings rate false (audio :: rest))
  = TTSStartedFrame :: map (audio_frame rate) (audio :: rest).
Proof.
  cbn [stream_events]. rewrite emitted_app, emitted_stream_events_started.
  reflexivity.
Qed.

Lemma yielded_stream_events rate (tts_started : bool) chunks :
  yielded (@stream_events VoiceSettings rate tts_started chunks)
  = map (audio_frame rate) chunks.
Proof.
  revert tts_started.
  induction chunks as [ | audio rest IH]; intros tts_started; [reflexivity | ].
  cbn [stream_events]. rewrite yielded_app, IH.
  destruct tts_started; reflexivity.
Qed.

Lemma count_stop_ttfb_stream_events rate (tts_started : bool) chunks :
  count_stop_ttfb (@stream_events VoiceSettings rate tts_started chunks)
  = length chunks.
Proof.
  revert tts_started.
  induction chunks as [ | audio rest IH]; intros tts_started; [reflexivity | ].
  cbn [stream_events]. rewrite count_stop_ttfb_app, IH.
  destruct tts_started; reflexivity.
Qed.

Lemma stream_events_flat_map rate chunks :
  @stream_events VoiceSettings rate true chunks
  = flat_map (chunk_events rate true) chunks.
Proof.
  induction chunks as [ | audio rest IH]; [reflexivity | ].
  cbn [stream_events flat_map]. now rewrite IH.
Qed.

Lemma filter_is_stopped_audio rate chunks :
  filter is_stopped (map (audio_frame rate) chunks) = [].
Proof. induction chunks as [ | audio rest IH]; [reflexivity | exact IH]. Qed.

Lemma filter_is_started_audio rate chunks :
  filter is_started (map (audio_frame rate) chunks) = [].
Proof. induction chunks as [ | audio rest IH]; [reflexivity | exact IH]. Qed.

Lemma filter_is_audio_audio rate chunks :
  filter is_audio (map (audio_frame rate) chunks)
  = map (audio_frame rate) chunks.
Proof.
  induction chunks as [ | audio rest IH]; [reflexivity | ].
  cbn. now rewrite IH.
Qed.

(** The trace of a call that received at least one chunk, spelled out. *)
Lemma run_tts_trace_cons vendor text self first rest :
  vendor_chunks vendor self text = first :: rest ->
  trace_of (run_tts vendor text self) =
  request_events self text
  ++ [ EvChunk first;
       EvPushFrame TTSStartedFrame;
       EvStopTtfbMetrics;
       EvYield (AudioRawFrame first (_sample_rate self) 1) ]
  ++ flat_map
       (fun audio =>
          [ EvChunk audio;
            EvStopTtfbMetrics;
            EvYield (AudioRawFrame audio (_sample_rate self) 1) ])
       rest
  ++ match vendor_error vendor self text with
     | None => [EvPushFrame TTSStoppedFrame]
     | Some _ => []
     end.
Proof.
  intros Hchunks. rewrite run_tts_run, Hchunks. unfold trace_of. cbn [fst].
  cbn [stream_events]. rewrite stream_events_flat_map.
  rewrite <- app_assoc. reflexivity.
Qed.

(** ** The claims about one [run_tts] call *)

(** The calls of [stop_ttfb_metrics]: line 98 is outside the first-chunk
    guard, so the method is called once for every chunk delivered, each
    time before that chunk's audio frame is yielded. *)
Lemma ttfb_stop_called_once_per_chunk vendor text self first rest :
  vendor_chunks vendor self text = first :: rest ->
  let o := run_tts vendor text self in
  count_stop_ttfb (trace_of o) = S (length rest) /\
  trace_of o =
  request_events self text
  ++ [ EvChunk first;
       EvPushFrame TTSStartedFrame;
       EvStopTtfbMetrics;
       EvYield (AudioRawFrame first (_sample_rate self) 1) ]
  ++ flat_map
       (fun audio =>
          [ EvChunk audio;
            EvStopTtfbMetrics;
            EvYield (AudioRawFrame audio (_sample_rate self) 1) ])
       rest
  ++ match vendor_error vendor self text with
     | None => [EvPushFrame TTSStoppedFrame]
     | Some _ => []
     end.
Proof.
  intros Hchunks o. split.
  - subst o. rewrite run_tts_run, Hchunks. unfold trace_of. cbn [fst].
    rewrite !count_stop_ttfb_app, count_stop_ttfb_stream_events.
    destruct (vendor_error vendor self text); cbn; lia.
  - apply run_tts_trace_cons, Hchunks.
Qed.



(** C2: a call whose stream delivers N >= 1 chunks and raises nothing
    returns normally and emits, [push_frame] and [yield] together, the
    started marker, the N audio frames in delivery order and the stopped
    marker, N + 2 frames; the started marker is pushed when the first chunk
    has arrived and before that chunk's frame is yielded. *)
Theorem run_tts_emits_started_audio_stopped vendor text self first rest :
  vendor_chunks vendor self text = first :: rest ->
  vendor_error vendor self text = None ->
  let o := run_tts vendor text self in
  result_of o = Returned tt /\
  emitted (trace_of o) =
    TTSStartedFrame
    :: map (fun audio => AudioRawFrame audio (_sample_rate self) 1) (first :: rest)
    ++ [TTSStoppedFrame] /\
  length (emitted (trace_of o)) = (length (first :: rest) + 2)%nat /\
  trace_of o =
    request_events self text
    ++ [ EvChunk first;
         EvPushFrame TTSStartedFrame;
         EvStopTtfbMetrics;
         EvYield (AudioRawFrame first (_sample_rate self) 1) ]
    ++ flat_map
         (fun audio =>
            [ EvChunk audio;
              EvStopTtfbMetrics;
              EvYield (AudioRawFrame audio (_sample_rate self) 1) ])
         rest
    ++ [EvPushFrame TTSStoppedFrame].
Proof.
  intros Hchunks Herr o.
  assert (Hem : emitted (trace_of o) =
                TTSStartedFrame
                :: map (audio_frame (_sample_rate self)) (first :: rest)
                ++ [TTSStoppedFrame]).
  { subst o. rewrite run_tts_run, Hchunks, Herr. unfold trace_of. cbn [fst].
    rewrite !emitted_app, emitted_stream_events_fresh. reflexivity. }
  repeat split.
  - subst o. rewrite run_tts_run, Herr. reflexivity.
  - exact Hem.
  - rewrite Hem. cbn [length]. rewrite length_app, length_map. cbn [length]. lia.
  - subst o. rewrite (run_tts_trace_cons _ _ _ _ _ Hchunks), Herr. reflexivity.
Qed.

(** C3: a call whose stream delivers no chunk and raises nothing returns
    normally and emits the stopped marker alone: no started marker, no
    audio frame. *)
Theorem run_tts_empty_stream_emits_only_stopped vendor text self :
  vendor_chunks vendor self text = [] ->
  vendor_error vendor self text = None ->
  let o := run_tts vendor text self in
  result_of o = Returned tt /\
  emitted (trace_of o) = [TTSStoppedFrame] /\
  filter is_started (emitted (trace_of o)) = [] /\
  filter is_audio (emitted (trace_of o)) = [].
Proof.
  intros Hchunks Herr o. subst o.
  rewrite run_tts_run, Hchunks, Herr. unfold trace_of, result_of. cbn.
  repeat split; reflexivity.
Qed.

Lemma emitted_run_tts vendor text self :
  emitted (trace_of (run_tts vendor text self)) =
  match vendor_chunks vendor self text with
  | [] => []
  | _ :: _ => [TTSStartedFrame]
  end
  ++ map (audio_frame (_sample_rate self)) (vendor_chunks vendor self text)
  ++ match vendor_error vendor self text with
     | None => [TTSStoppedFrame]
     | Some _ => []
     end.
Proof.
  rewrite run_tts_run. unfold trace_of. cbn [fst]. rewrite !emitted_app.
  change (emitted (request_events self text)) with (@nil Frame). cbn [app].
  destruct (vendor_chunks vendor self text) as [ | first rest].
  - destruct (vendor_error vendor self text); reflexivity.
  - rewrite emitted_stream_events_fresh.
    destruct (vendor_error vendor self text); reflexivity.
Qed.

(** C6: the audio frames of a call are, in delivery order, the vendor's
    chunks, each with its bytes unchanged, the adapter's stored sample rate
    and one channel; the stored sample rate is the one the constructor
    computes from the output format of the [params] it is given (the
    default ["pcm_16000"] when none is given), so a call on a constructed
    adapter stamps every frame with the rate of that format. *)
Theorem audio_frames_carry_chunks_rate_and_one_channel :
  (forall vendor text self,
     let o := run_tts vendor text self in
     yielded (trace_of o) =
       map (fun audio => AudioRawFrame audio (_sample_rate self) 1)
         (vendor_chunks vendor self text) /\
     filter is_audio (emitted (trace_of o)) =
       map (fun audio => AudioRawFrame audio (_sample_rate self) 1)
         (vendor_chunks vendor self text)) /\
  (forall api_key voice_id model (voice_settings : option VoiceSettings)
          params optimize_streaming_latency,
     _sample_rate
       (__init__ api_key voice_id model voice_settings params
          optimize_streaming_latency)
     = sample_rate_from_output_format
         match params with
         | Some p => output_format p
         | None => "pcm_16000"
         end) /\
  (forall api_key voice_id model (voice_settings : option VoiceSettings)
          params optimize_streaming_latency vendor text,
     let self :=
       __init__ api_key voice_id model voice_settings params
         optimize_streaming_latency in
     yielded (trace_of (run_tts vendor text self)) =
       map (fun audio =>
              AudioRawFrame audio
                (sample_rate_from_output_format
                   match params with
                   | Some p => output_format p
                   | None => "pcm_16000"
                   end)
                1)
         (vendor_chunks vendor self text)).
Proof.
  assert (Hyield : forall vendor text self,
             yielded (trace_of (run_tts vendor text self)) =
             map (fun audio => AudioRawFrame audio (_sample_rate self) 1)
               (vendor_chunks vendor self text)).
  { intros vendor text self. rewrite run_tts_run. unfold trace_of. cbn [fst].
    rewrite !yielded_app, yielded_stream_events.
    destruct (vendor_error vendor self text); cbn; now rewrite app_nil_r. }
  assert (Hinit : forall api_key voice_id model
                         (voice_settings : option VoiceSettings)
                         params optimize_streaming_latency,
             _sample_rate
               (__init__ api_key voice_id model voice_settings params
                  optimize_streaming_latency)
             = sample_rate_from_output_format
                 match params with
                 | Some p => output_format p
                 | None => "pcm_16000"
                 end).
  { intros. destruct params; reflexivity. }
  split; [ | split].
  - intros vendor text self o. subst o. split; [apply Hyield | ].
    rewrite emitted_run_tts, !filter_app.
    fold (audio_frame (_sample_rate self)).
    rewrite filter_is_audio_audio.
    destruct (vendor_chunks vendor self text), (vendor_error vendor self text);
      cbn; now rewrite ?app_nil_r.
  - exact Hinit.
  - intros api_key voice_id model voice_settings params osl vendor text self.
    subst self. rewrite Hyield, Hinit. reflexivity.
Qed.

(** C7: when the vendor raises, in the [generate] call or while the stream
    is iterated, [run_tts] ends with that same exception; the trace stops
    at the last chunk delivered before it, so what was emitted for those
    chunks stands and no stopped marker follows. *)
Theorem vendor_error_propagates_without_stopped vendor text self e :
  vendor_error vendor self text = Some e ->
  let o := run_tts vendor text self in
  result_of o = Raised e /\
  trace_of o =
    request_events self text
    ++ stream_events (_sample_rate self) false (vendor_chunks vendor self text) /\
  filter is_stopped (emitted (trace_of o)) = [] /\
  emitted (trace_of o) =
    match vendor_chunks vendor self text with
    | [] => []
    | chunks =>
        TTSStartedFrame
        :: map (fun audio => AudioRawFrame audio (_sample_rate self) 1) chunks
    end.
Proof.
  intros Herr o.
  assert (Hem : emitted (trace_of o) =
                match vendor_chunks vendor self text with
                | [] => []
                | chunks =>
                    TTSStartedFrame :: map (audio_frame (_sample_rate self)) chunks
                end).
  { subst o. rewrite emitted_run_tts, Herr, app_nil_r.
    destruct (vendor_chunks vendor self text); reflexivity. }
  repeat split.
  - subst o. rewrite run_tts_run, Herr. reflexivity.
  - subst o. rewrite run_tts_run, Herr, app_nil_r. reflexivity.
  - rewrite Hem. destruct (vendor_chunks vendor self text) as [ | first rest].
    + reflexivity.
    + cbn [filter is_stopped]. apply filter_is_stopped_audio.
  - exact Hem.
Qed.

(** ** Reconfiguration *)

(** C8: [set_model] stores the new model and [set_voice] the new voice;
    each returns normally on every string, sends nothing to the vendor
    (its only effect outside the object is one debug log line) and leaves
    all other fields as they were. *)
Theorem set_model_set_voice_change_one_field (s : string) self :
  (let o := set_model s self in
   result_of o = Returned tt /\
   trace_of o = [EvLogDebug ("Switching TTS model to: [" ++ s ++ "]")%string] /\
   filter is_generate (trace_of o) = [] /\
   _model (self_of o) = s /\
   _voice_id (self_of o) = _voice_id self /\
   _params (self_of o) = _params self /\
   _voice_settings (self_of o) = _voice_settings self /\
   _client (self_of o) = _client self /\
   _optimize_streaming_latency (self_of o) = _optimize_streaming_latency self /\
   _sample_rate (self_of o) = _sample_rate self) /\
  (let o := set_voice s self in
   result_of o = Returned tt /\
   trace_of o = [EvLogDebug ("Switching TTS voice to: [" ++ s ++ "]")%string] /\
   filter is_generate (trace_of o) = [] /\
   _voice_id (self_of o) = s /\
   _model (self_of o) = _model self /\
   _params (self_of o) = _params self /\
   _voice_settings (self_of o) = _voice_settings self /\
   _client (self_of o) = _client self /\
   _optimize_streaming_latency (self_of o) = _optimize_streaming_latency self /\
   _sample_rate (self_of o) = _sample_rate self).
Proof. split; cbn; repeat split; reflexivity. Qed.

(** ** The generator, one resumption at a time *)

Lemma bind_assoc {A B C : Type} (m : M A) (f : A -> M B) (g : B -> M C) self :
  bind (bind m f) g self = bind m (fun a => bind (f a) g) self.
Proof.
  unfold bind. destruct (m self) as [[t1 self1] [a | e]]; [ | reflexivity].
  destruct (f a self1) as [[t2 self2] [b | e]]; [ | reflexivity].
  destruct (g b self2) as [[t3 self3] r]. now rewrite app_assoc.
Qed.

Lemma loop_head_run results (tts_started : bool) self :
  loop_head results tts_started self =
  match results with
  | Next audio rest =>
      (chunk_events (_sample_rate self) tts_started audio,
       self,
       Returned (Some (audio_frame (_sample_rate self) audio), AtYield rest true))
  | StopAsyncIteration =>
      ([EvPushFrame TTSStoppedFrame], self, Returned (None, Closed))
  | RaiseInStream e => ([], self, Raised e)
  end.
Proof.
  destruct results as [audio rest | | e]; [ | reflexivity | reflexivity].
  cbn [loop_head]. unfold bind at 1. cbn [emit].
  unfold bind at 1. rewrite loop_body_run. unfold ret, chunk_events.
  cbn [fst snd app]. now rewrite app_nil_r.
Qed.

Lemma anext_keeps_self (g : @Generator VoiceSettings) self :
  self_of (__anext__ g self) = self.
Proof.
  destruct g as [vendor text | rest tts_started | ]; cbn [__anext__].
  - unfold bind. rewrite request_stream_run.
    destruct (vendor _ _) as [results | e]; [ | reflexivity].
    rewrite loop_head_run. destruct results; reflexivity.
  - rewrite loop_head_run. destruct rest; reflexivity.
  - reflexivity.
Qed.

Lemma emitted_chunk_events_rate rate (tts_started : bool) audio :
  Forall (is_marker_or_audio_at rate)
    (emitted (@chunk_events VoiceSettings rate tts_started audio)).
Proof.
  destruct tts_started; cbn; repeat constructor.
Qed.

Lemma anext_frames_rate (g : @Generator VoiceSettings) self :
  Forall (is_marker_or_audio_at (_sample_rate self))
    (emitted (trace_of (__anext__ g self))).
Proof.
  destruct g as [vendor text | rest tts_started | ]; cbn [__anext__].
  - unfold bind. rewrite request_stream_run.
    destruct (vendor _ _) as [results | e]; [ | constructor].
    rewrite loop_head_run.
    destruct results as [audio rest | | e]; unfold trace_of; cbn [fst].
    + rewrite emitted_app. apply Forall_app. split; [constructor | ].
      apply emitted_chunk_events_rate.
    + cbn. repeat constructor.
    + constructor.
  - rewrite loop_head_run.
    destruct rest as [audio rest | | e]; unfold trace_of; cbn [fst].
    + apply emitted_chunk_events_rate.
    + cbn. repeat constructor.
    + constructor.
  - constructor.
Qed.

(** Draining a suspended generator finishes the loop and the method. *)
Lemma drain_at_yield results : forall fuel (tts_started : bool) self,
  (length (delivered results) < fuel)%nat ->
  drain fuel (AtYield results tts_started) self =
  (stream_events (_sample_rate self) tts_started (delivered results)
   ++ match stream_error results with
      | None => [EvPushFrame TTSStoppedFrame]
      | Some _ => []
      end,
   self,
   match stream_error results with
   | None => Returned true
   | Some e => Raised e
   end).
Proof.
  induction results as [audio rest IH | | e]; intros fuel tts_started self Hfuel;
    (destruct fuel as [ | fuel]; [cbn in Hfuel; lia | ]);
    cbn [drain __anext__]; unfold bind at 1; rewrite loop_head_run.
  - cbn [fst snd]. rewrite IH by (cbn in Hfuel; lia).
    cbn [delivered stream_events stream_error]. now rewrite app_assoc.
  - reflexivity.
  - reflexivity.
Qed.

(** A caller that iterates the generator to its end sees what [run_tts]
    describes, given fuel for one resumption more than there are chunks. *)
Lemma drain_run_tts vendor text self fuel :
  (length (vendor_chunks vendor self text) < fuel)%nat ->
  drain fuel (NotStarted vendor text) self =
  (trace_of (run_tts vendor text self),
   self_of (run_tts vendor text self),
   match result_of (run_tts vendor text self) with
   | Returned _ => Returned true
   | Raised e => Raised e
   end).
Proof.
  intros Hfuel. destruct fuel as [ | fuel]; [lia | ].
  rewrite run_tts_run. unfold trace_of, self_of, result_of. cbn [fst snd].
  cbn [drain __anext__]. rewrite bind_assoc.
  unfold bind at 1. rewrite request_stream_run.
  revert Hfuel. unfold vendor_chunks, vendor_error.
  destruct (vendor _ _) as [results | e]; intros Hfuel.
  - change (bind (loop_head results false)
              (fun r => match fst r with
                        | Some _ => drain fuel (snd r)
                        | None => ret true
                        end) self)
      with (drain (S fuel) (AtYield results false) self).
    rewrite drain_at_yield by exact Hfuel.
    destruct (stream_error results); reflexivity.
  - cbn [stream_events]. now rewrite app_nil_r.
Qed.

(** ** The adapter's lifetime *)

Lemma step_invariant (c : @Call VoiceSettings) (w : Session) :
  _sample_rate (adapter (snd (step c w))) = _sample_rate (adapter w) /\
  _params (adapter (snd (step c w))) = _params (adapter w) /\
  Forall (is_marker_or_audio_at (_sample_rate (adapter w)))
    (emitted (fst (step c w))).
Proof.
  destruct c as [ | model | voice | vendor text | i]; cbn [step].
  - cbn. repeat split; constructor.
  - cbn. repeat split; constructor.
  - cbn. repeat split; constructor.
  - cbn. repeat split; constructor.
  - destruct (nth_error (generators w) i) as [g | ].
    + pose proof (anext_keeps_self g (adapter w)) as Hself.
      pose proof (anext_frames_rate g (adapter w)) as Hrate.
      destruct (__anext__ g (adapter w)) as [[t self'] [r | e]];
        unfold self_of, trace_of in Hself, Hrate; cbn in Hself, Hrate;
        subst self'; cbn; repeat split; exact Hrate.
    + cbn. repeat split; constructor.
Qed.

Lemma lifetime_invariant (calls : list (@Call VoiceSettings)) :
  forall w : Session,
  _sample_rate (adapter (snd (lifetime calls w))) = _sample_rate (adapter w) /\
  _params (adapter (snd (lifetime calls w))) = _params (adapter w) /\
  Forall (is_marker_or_audio_at (_sample_rate (adapter w)))
    (emitted (fst (lifetime calls w))).
Proof.
  induction calls as [ | c rest IH]; intros w; cbn [lifetime].
  - cbn. repeat split; constructor.
  - destruct (step_invariant c w) as (Hrate & Hparams & Hframes).
    destruct (step c w) as [t1 w1]. cbn [fst snd] in *.
    destruct (IH w1) as (Hrate' & Hparams' & Hframes').
    destruct (lifetime rest w1) as [t2 w2]. cbn [fst snd] in *.
    repeat split.
    + congruence.
    + congruence.
    + rewrite emitted_app. apply Forall_app. split; [exact Hframes | ].
      rewrite <- Hrate. exact Hframes'.
Qed.

(** C9: the sample rate is fixed by the constructor.  No call of
    [can_generate_metrics], [set_model], [set_voice] or [run_tts] (started
    or resumed, with any number of generators in flight and in any
    interleaving) changes the stored sample rate or the stored parameters,
    and every audio frame emitted over the adapter's lifetime carries the
    rate the constructor computed from the output format. *)
Theorem sample_rate_fixed_at_construction :
  (forall (c : @Call VoiceSettings) (w : Session),
     _sample_rate (adapter (snd (step c w))) = _sample_rate (adapter w) /\
     _params (adapter (snd (step c w))) = _params (adapter w)) /\
  (forall vendor text self,
     self_of (run_tts vendor text self) = self) /\
  (forall api_key voice_id model (voice_settings : option VoiceSettings)
          params optimize_streaming_latency (calls : list Call),
     let self0 :=
       __init__ api_key voice_id model voice_settings params
         optimize_streaming_latency in
     let rate := sample_rate_from_output_format (output_format (_params self0)) in
     let o := lifetime calls {| adapter := self0; generators := [] |} in
     _sample_rate (adapter (snd o)) = rate /\
     _params (adapter (snd o)) = _params self0 /\
     Forall (is_marker_or_audio_at rate) (emitted (fst o))).
Proof.
  split; [ | split].
  - intros c w. destruct (step_invariant c w) as (H1 & H2 & _). now split.
  - intros vendor text self. now rewrite run_tts_run.
  - intros api_key voice_id model voice_settings params osl calls self0 rate o.
    exact (lifetime_invariant calls {| adapter := self0; generators := [] |}).
Qed.

(** ** Construction *)

Lemma InputParams_new_recognized arg p :
  InputParams_new arg = Returned p -> In (output_format p) output_format_literals.
Proof.
  destruct arg as [s | ]; cbn [InputParams_new].
  - destruct (recognized s) eqn:E; [ | discriminate].
    intros [= <-]. now apply recognized_In.
  - intros [= <-]. cbn. now left.
Qed.

Lemma match_output_format_sample_rate (s : string) :
  In s output_format_literals ->
  match_output_format s = Some (sample_rate_from_output_format s).
Proof.
  intros H. pose proof (match_output_format_recognized s H) as Hne.
  unfold sample_rate_from_output_format.
  destruct (match_output_format s); [reflexivity | contradiction].
Qed.

(** C10: an [InputParams] built through its class holds one of the four
    recognized formats (anything else is refused with a validation error,
    and the default is ["pcm_16000"]), so in an adapter constructed with
    such parameters, or with the default ones, the sample rate comes from
    one of the four [case] arms and never from the trailing
    [return 16000]. *)
Theorem constructor_never_takes_the_fallback
  api_key voice_id model (voice_settings : option VoiceSettings)
  optimize_streaming_latency :
  (forall arg p,
     InputParams_new arg = Returned p ->
     let self :=
       __init__ api_key voice_id model voice_settings (Some p)
         optimize_streaming_latency in
     In (output_format (_params self))
       ["pcm_16000"; "pcm_22050"; "pcm_24000"; "pcm_44100"] /\
     match_output_format (output_format (_params self))
     = Some (_sample_rate self)) /\
  (let self :=
     __init__ api_key voice_id model voice_settings None
       optimize_streaming_latency in
   output_format (_params self) = "pcm_16000" /\
   match_output_format (output_format (_params self))
   = Some (_sample_rate self)) /\
  (forall s,
     ~ In s ["pcm_16000"; "pcm_22050"; "pcm_24000"; "pcm_44100"] ->
     InputParams_new (Some s) = Raised (ValidationError "output_format")).
Proof.
  split; [ | split].
  - intros arg p Hnew self. subst self. cbn [__init__ _params _sample_rate].
    pose proof (InputParams_new_recognized arg p Hnew) as Hin.
    split; [exact Hin | now apply match_output_format_sample_rate].
  - cbn. split; reflexivity.
  - intros s Hs. cbn [InputParams_new].
    destruct (recognized s) eqn:E; [ | reflexivity].
    apply recognized_In in E. contradiction.
Qed.

End AdapterFacts.

(** * Concrete runs *)


Lemma run_tts_emits_started_audio_stopped_witness :
  vendor_chunks (vendor_of (stream_of [chunk1; chunk2; chunk3]))
    (@sample_service unit) "hello"
  = chunk1 :: [chunk2; chunk3] /\
  vendor_error (vendor_of (stream_of [chunk1; chunk2; chunk3]))
    (@sample_service unit) "hello"
  = None /\
  emitted
    (trace_of
       (run_tts (vendor_of (stream_of [chunk1; chunk2; chunk3])) "hello"
          (@sample_service unit)))
  = [ TTSStartedFrame;
      AudioRawFrame chunk1 24000 1;
      AudioRawFrame chunk2 24000 1;
      AudioRawFrame chunk3 24000 1;
      TTSStoppedFrame ].
Proof.
  split; [reflexivity | split; [reflexivity | ]].
  exact (proj1 (proj2 (run_tts_emits_started_audio_stopped
                         (vendor_of (stream_of [chunk1; chunk2; chunk3])) "hello"
                         (@sample_service unit) chunk1 [chunk2; chunk3]
                         eq_refl eq_refl))).
Defined.

Lemma run_tts_empty_stream_emits_only_stopped_witness :
  vendor_chunks (vendor_of StopAsyncIteration) (@sample_service unit) "hello" = [] /\
  vendor_error (vendor_of StopAsyncIteration) (@sample_service unit) "hello" = None /\
  emitted
    (trace_of (run_tts (vendor_of StopAsyncIteration) "hello" (@sample_service unit)))
  = [TTSStoppedFrame].
Proof.
  split; [reflexivity | split; [reflexivity | ]].
  exact (proj1 (proj2 (run_tts_empty_stream_emits_only_stopped
                         (vendor_of StopAsyncIteration) "hello"
                         (@sample_service unit) eq_refl eq_refl))).
Defined.

Lemma sample_rate_of_unrecognized_format_witness :
  ~ In "mp3_44100" ["pcm_16000"; "pcm_22050"; "pcm_24000"; "pcm_44100"] /\
  sample_rate_from_output_format "mp3_44100" = 16000.
Proof.
  assert (H : ~ In "mp3_44100" ["pcm_16000"; "pcm_22050"; "pcm_24000"; "pcm_44100"]).
  { simpl. intros [H | [H | [H | [H | []]]]]; discriminate H. }
  split; [exact H | ].
  exact (proj2 (sample_rate_of_unrecognized_format "mp3_44100" H)).
Defined.

Lemma vendor_error_propagates_without_stopped_witness :
  vendor_error (vendor_of (failing_stream [chunk1; chunk2] boom))
    (@sample_service unit) "hello"
  = Some boom /\
  result_of
    (run_tts (vendor_of (failing_stream [chunk1; chunk2] boom)) "hello"
       (@sample_service unit))
  = Raised boom /\
  vendor_error refusing_vendor (@sample_service unit) "hello" = Some boom /\
  result_of (run_tts refusing_vendor "hello" (@sample_service unit)) = Raised boom.
Proof.
  split; [reflexivity | split; [ | split; [reflexivity | ]]].
  - exact (proj1 (vendor_error_propagates_without_stopped
                    (vendor_of (failing_stream [chunk1; chunk2] boom)) "hello"
                    (@sample_service unit) boom eq_refl)).
  - exact (proj1 (vendor_error_propagates_without_stopped
                    refusing_vendor "hello" (@sample_service unit) boom eq_refl)).
Defined.

Lemma constructor_never_takes_the_fallback_witness :
  InputParams_new (Some "pcm_44100") = Returned {| output_format := "pcm_44100" |} /\
  match_output_format
    (output_format
       (_params
          (@__init__ unit "key" "voice-1" None None
             (Some {| output_format := "pcm_44100" |}) None)))
  = Some 44100.
Proof.
  split; [reflexivity | ].
  exact (proj2 (proj1 (constructor_never_takes_the_fallback
                         "key" "voice-1" None (@None unit) None)
                  (Some "pcm_44100") {| output_format := "pcm_44100" |} eq_refl)).
Defined.

(** * Further properties *)

(** ** The output-format table, continued *)

(** X1: whatever the string, the function returns one of four rates, and
    a rate other than 16000 is returned for its own format name only. *)
Theorem sample_rate_is_one_of_four (s : string) :
  In (sample_rate_from_output_format s) [16000; 22050; 24000; 44100] /\
  (sample_rate_from_output_format s = 22050 <-> s = "pcm_22050") /\
  (sample_rate_from_output_format s = 24000 <-> s = "pcm_24000") /\
  (sample_rate_from_output_format s = 44100 <-> s = "pcm_44100").
Proof.
  unfold sample_rate_from_output_format, match_output_format.
  repeat match goal with
         | |- context [String.eqb ?a ?b] =>
             destruct (String.eqb_spec a b) as [-> | ?]
         end;
    cbn [In]; repeat split; intros; try discriminate; try congruence; tauto.
Qed.

(** X2: a recognized format name is ["pcm_"] followed by the decimal
    notation of the rate the function returns for it, so two recognized
    formats with the same rate are the same format. *)
Theorem recognized_format_spells_its_rate :
  (forall s,
     In s ["pcm_16000"; "pcm_22050"; "pcm_24000"; "pcm_44100"] ->
     s = ("pcm_" ++ str (sample_rate_from_output_format s))%string) /\
  (forall s1 s2,
     In s1 ["pcm_16000"; "pcm_22050"; "pcm_24000"; "pcm_44100"] ->
     In s2 ["pcm_16000"; "pcm_22050"; "pcm_24000"; "pcm_44100"] ->
     sample_rate_from_output_format s1 = sample_rate_from_output_format s2 ->
     s1 = s2).
Proof.
  assert (Hspell : forall s,
             In s ["pcm_16000"; "pcm_22050"; "pcm_24000"; "pcm_44100"] ->
             s = ("pcm_" ++ str (sample_rate_from_output_format s))%string).
  { intros s [H | [H | [H | [H | []]]]]; subst; reflexivity. }
  split; [exact Hspell | ].
  intros s1 s2 H1 H2 Heq.
  rewrite (Hspell s1 H1), (Hspell s2 H2), Heq. reflexivity.
Qed.

(** X3: the strings [InputParams] accepts are exactly the strings for
    which the [match] has an arm: the trailing [return 16000] is taken on
    a string if and only if [InputParams] refuses it. *)
Theorem params_accept_what_the_match_handles (s : string) :
  ((exists p, InputParams_new (Some s) = Returned p) <->
   match_output_format s <> None) /\
  (InputParams_new (Some s) = Raised (ValidationError "output_format") <->
   match_output_format s = None).
Proof.
  cbn [InputParams_new]. destruct (recognized s) eqn:E.
  - apply recognized_In in E.
    pose proof (match_output_format_recognized s E) as Hne.
    split; split; intros H.
    + exact Hne.
    + now eexists.
    + discriminate H.
    + contradiction.
  - assert (Hnot : ~ In s output_format_literals).
    { intros Hin. apply recognized_In in Hin. congruence. }
    pose proof (match_output_format_None s Hnot) as Hnone.
    split; split; intros H.
    + destruct H as [p Hp]. discriminate Hp.
    + contradiction.
    + exact Hnone.
    + reflexivity.
Qed.

Section AdapterExtras.

Context {VoiceSettings : Type}.

Implicit Types (self : @ElevenLabsTTSService VoiceSettings).
Implicit Types (vendor : @Vendor VoiceSettings).
Implicit Types (results : AsyncIterator) (chunks : list bytes).
Implicit Types (t : list (@Event VoiceSettings)).

Lemma generate_calls_app t1 t2 :
  generate_calls (t1 ++ t2) = generate_calls t1 ++ generate_calls t2.
Proof. apply flat_map_app. Qed.

Lemma generate_calls_stream_events rate (tts_started : bool) chunks :
  generate_calls (@stream_events VoiceSettings rate tts_started chunks) = [].
Proof.
  revert tts_started.
  induction chunks as [ | audio rest IH]; intros tts_started; [reflexivity | ].
  cbn [stream_events]. rewrite generate_calls_app, IH.
  destruct tts_started; reflexivity.
Qed.

Lemma start_metrics_stream_events rate (tts_started : bool) chunks :
  filter is_start_metrics (@stream_events VoiceSettings rate tts_started chunks)
  = [].
Proof.
  revert tts_started.
  induction chunks as [ | audio rest IH]; intros tts_started; [reflexivity | ].
  cbn [stream_events]. rewrite filter_app, IH.
  destruct tts_started; reflexivity.
Qed.

Lemma generate_calls_run_tts vendor text self :
  generate_calls (trace_of (run_tts vendor text self))
  = [(_client self, generate_kwargs self text)].
Proof.
  rewrite run_tts_run. unfold trace_of. cbn [fst].
  rewrite !generate_calls_app, generate_calls_stream_events.
  destruct (vendor_error vendor self text); reflexivity.
Qed.

(** ** One call, continued *)

(** X4: whatever the vendor does and whatever the text (the empty string
    too), a [run_tts] call starts the usage and time-to-first-byte
    telemetry once each and then sends exactly one request, for that text
    and with the fields of the adapter as they are then; all of it comes
    before any chunk is received or frame emitted. *)
Theorem run_tts_sends_one_request_first vendor text self :
  let t := trace_of (run_tts vendor text self) in
  generate_calls t = [(_client self, generate_kwargs self text)] /\
  filter is_start_metrics t = [EvStartTtsUsageMetrics text; EvStartTtfbMetrics] /\
  exists rest,
    t = [ EvLogDebug ("Generating TTS: [" ++ text ++ "]")%string;
          EvStartTtsUsageMetrics text;
          EvStartTtfbMetrics;
          EvGenerate (_client self) (generate_kwargs self text) ] ++ rest /\
    generate_calls rest = [] /\
    filter is_start_metrics rest = [].
Proof.
  intros t. subst t. split; [apply generate_calls_run_tts | ].
  rewrite run_tts_run. unfold trace_of. cbn [fst]. split.
  - rewrite !filter_app, start_metrics_stream_events.
    destruct (vendor_error vendor self text); reflexivity.
  - eexists. split; [reflexivity | ].
    rewrite generate_calls_app, filter_app, generate_calls_stream_events,
      start_metrics_stream_events.
    destruct (vendor_error vendor self text); split; reflexivity.
Qed.

(** X5: the first request of a freshly constructed adapter carries the
    constructor's arguments unchanged, with the defaults
    ["eleven_turbo_v2_5"], ["pcm_16000"] and [0] for the keywords left
    out, through a client built from the given key, and asks for a
    stream. *)
Theorem constructor_arguments_reach_the_vendor
  api_key voice_id model (voice_settings : option VoiceSettings) params
  optimize_streaming_latency vendor text :
  generate_calls
    (trace_of
       (run_tts vendor text
          (__init__ api_key voice_id model voice_settings params
             optimize_streaming_latency)))
  = [ ({| api_key := api_key |},
       {| req_text := text;
          req_voice := voice_id;
          req_model :=
            match model with Some m => m | None => "eleven_turbo_v2_5" end;
          req_output_format :=
            match params with Some p => output_format p | None => "pcm_16000" end;
          req_voice_settings := voice_settings;
          req_optimize_streaming_latency :=
            match optimize_streaming_latency with Some n => n | None => 0 end;
          req_stream := true |}) ].
Proof.
  rewrite generate_calls_run_tts. destruct model, params, optimize_streaming_latency;
    reflexivity.
Qed.

(** X6: after [set_model m] and [set_voice v], in either order, the next
    [run_tts] call asks the vendor for model [m] and voice [v]; client,
    output format, voice settings and latency level are those from before,
    and the audio frames still carry the sample rate from before. *)
Theorem reconfigured_model_and_voice_reach_the_vendor m v vendor text self :
  let self1 := self_of (set_voice v (self_of (set_model m self))) in
  let self2 := self_of (set_model m (self_of (set_voice v self))) in
  self1 = self2 /\
  generate_calls (trace_of (run_tts vendor text self1))
  = [ (_client self,
       {| req_text := text;
          req_voice := v;
          req_model := m;
          req_output_format := output_format (_params self);
          req_voice_settings := _voice_settings self;
          req_optimize_streaming_latency := _optimize_streaming_latency self;
          req_stream := true |}) ] /\
  yielded (trace_of (run_tts vendor text self1))
  = map (fun audio => AudioRawFrame audio (_sample_rate self) 1)
      (vendor_chunks vendor self1 text).
Proof.
  intros self1 self2. split; [reflexivity | split].
  - rewrite generate_calls_run_tts. reflexivity.
  - rewrite run_tts_run. unfold trace_of. cbn [fst].
    rewrite !yielded_app, yielded_stream_events.
    destruct (vendor_error vendor self1 text); cbn; now rewrite app_nil_r.
Qed.

(** ** The generator, continued *)

Lemma generate_calls_chunk_events rate (tts_started : bool) audio :
  generate_calls (@chunk_events VoiceSettings rate tts_started audio) = [].
Proof. destruct tts_started; reflexivity. Qed.

Lemma generate_calls_anext (g : @Generator VoiceSettings) self :
  generate_calls (trace_of (__anext__ g self)) =
  match g with
  | NotStarted _ text => [(_client self, generate_kwargs self text)]
  | _ => []
  end.
Proof.
  destruct g as [vendor text | rest tts_started | ]; cbn [__anext__].
  - unfold bind. rewrite request_stream_run.
    destruct (vendor _ _) as [results | e]; [ | reflexivity].
    rewrite loop_head_run.
    destruct results as [audio rest | | e]; unfold trace_of; cbn [fst];
      rewrite generate_calls_app; [ | reflexivity | reflexivity].
    rewrite generate_calls_chunk_events. reflexivity.
  - rewrite loop_head_run.
    destruct rest as [audio rest | | e]; unfold trace_of; cbn [fst];
      [apply generate_calls_chunk_events | reflexivity | reflexivity].
  - reflexivity.
Qed.

(** A generator suspended at a [yield] reads the sample rate and nothing
    else of the adapter. *)
Lemma drain_at_yield_rate_only fuel : forall results (tts_started : bool) self1 self2,
  _sample_rate self1 = _sample_rate self2 ->
  trace_of (drain fuel (AtYield results tts_started) self1)
  = trace_of (drain fuel (AtYield results tts_started) self2) /\
  result_of (drain fuel (AtYield results tts_started) self1)
  = result_of (drain fuel (AtYield results tts_started) self2).
Proof.
  induction fuel as [ | fuel IH]; intros results tts_started self1 self2 Hrate.
  - split; reflexivity.
  - cbn [drain __anext__]. unfold bind. rewrite !loop_head_run.
    destruct results as [audio rest | | e]; cbn [fst snd].
    + destruct (IH rest true self1 self2 Hrate) as [Ht Hr].
      destruct (drain fuel (AtYield rest true) self1) as [[ta sa] ra].
      destruct (drain fuel (AtYield rest true) self2) as [[tb sb] rb].
      unfold trace_of, result_of in *. cbn [fst snd] in *. subst.
      rewrite Hrate. split; reflexivity.
    + split; reflexivity.
    + split; reflexivity.
Qed.

Lemma drain_at_yield_short results : forall fuel (tts_started : bool) self,
  (fuel <= length (delivered results))%nat ->
  drain fuel (AtYield results tts_started) self =
  (stream_events (_sample_rate self) tts_started
     (firstn fuel (delivered results)),
   self,
   Returned false).
Proof.
  induction results as [audio rest IH | | e]; intros fuel tts_started self Hfuel;
    (destruct fuel as [ | fuel]; [reflexivity | ]);
    cbn [delivered length] in Hfuel; try lia.
  cbn [drain __anext__]. unfold bind at 1. rewrite loop_head_run.
  cbn [fst snd]. rewrite IH by lia. reflexivity.
Qed.

(** X7: calling [run_tts] sends nothing; the adapter is read when the
    generator is first resumed.  So a generator made before [set_model]
    and [set_voice] but first resumed after them behaves, event for event,
    like one made after them, and its request names the new model and
    voice. *)
Theorem configuration_is_read_at_first_resumption vendor text m v self :
  let w := {| adapter := self; generators := [] |} in
  fst (lifetime [CallRunTts vendor text] w) = [] /\
  fst (lifetime
         [CallRunTts vendor text; CallSetModel m; CallSetVoice v; CallAnext 0] w)
  = fst (lifetime
           [CallSetModel m; CallSetVoice v; CallRunTts vendor text; CallAnext 0] w) /\
  generate_calls
    (fst (lifetime
            [CallRunTts vendor text; CallSetModel m; CallSetVoice v; CallAnext 0] w))
  = [ (_client self,
       {| req_text := text;
          req_voice := v;
          req_model := m;
          req_output_format := output_format (_params self);
          req_voice_settings := _voice_settings self;
          req_optimize_streaming_latency := _optimize_streaming_latency self;
          req_stream := true |}) ].
Proof.
  intros w. subst w. split; [reflexivity | split].
  - cbn -[__anext__].
    destruct (__anext__ _ _) as [[t self'] [r | e]]; reflexivity.
  - pose proof (generate_calls_anext (NotStarted vendor text)
                  (self_of (set_voice v (self_of (set_model m self))))) as H.
    cbn -[__anext__ generate_calls] in H. cbn -[__anext__ generate_calls].
    destruct (__anext__ _ _) as [[t self'] [r | e]];
      unfold trace_of in H; cbn [fst] in H; cbn [fst];
      cbn [generate_calls generate_call flat_map app];
      fold (generate_calls (t ++ [])); rewrite app_nil_r; exact H.
Qed.

(** X8: once a generator has yielded its first frame, [set_model] and
    [set_voice] no longer reach it: resumed any number of times after
    them, it emits the same events and ends the same way as without
    them. *)
Theorem started_generator_ignores_reconfiguration
  results (tts_started : bool) fuel m v self :
  let self' := self_of (set_voice v (self_of (set_model m self))) in
  trace_of (drain fuel (AtYield results tts_started) self')
  = trace_of (drain fuel (AtYield results tts_started) self) /\
  result_of (drain fuel (AtYield results tts_started) self')
  = result_of (drain fuel (AtYield results tts_started) self).
Proof.
  intros self'. apply drain_at_yield_rate_only. reflexivity.
Qed.

(** X9: a caller that takes [k] frames, [1 <= k <= N], from a call whose
    stream holds [N] chunks and then stops iterating has received the
    first [k] audio frames, after the started marker; the loop is left
    suspended, and no stopped marker is pushed. *)
Theorem abandoned_generator_pushes_no_stopped vendor text self k :
  (1 <= k)%nat ->
  (k <= length (vendor_chunks vendor self text))%nat ->
  let o := drain k (NotStarted vendor text) self in
  result_of o = Returned false /\
  trace_of o =
    request_events self text
    ++ stream_events (_sample_rate self) false
         (firstn k (vendor_chunks vendor self text)) /\
  emitted (trace_of o) =
    TTSStartedFrame
    :: map (fun audio => AudioRawFrame audio (_sample_rate self) 1)
         (firstn k (vendor_chunks vendor self text)) /\
  filter is_stopped (emitted (trace_of o)) = [].
Proof.
  intros Hk Hlen o.
  assert (Hrun : o = (request_events self text
                      ++ stream_events (_sample_rate self) false
                           (firstn k (vendor_chunks vendor self text)),
                      self, Returned false)).
  { subst o. destruct k as [ | k]; [lia | ].
    cbn [drain __anext__]. rewrite bind_assoc.
    unfold bind at 1. rewrite request_stream_run.
    revert Hlen. unfold vendor_chunks.
    destruct (vendor _ _) as [results | e]; intros Hlen; [ | cbn in Hlen; lia].
    change (bind (loop_head results false)
              (fun r => match fst r with
                        | Some _ => drain k (snd r)
                        | None => ret true
                        end) self)
      with (drain (S k) (AtYield results false) self).
    rewrite drain_at_yield_short by exact Hlen. reflexivity. }
  assert (Hem : emitted (trace_of o) =
                TTSStartedFrame
                :: map (audio_frame (_sample_rate self))
                     (firstn k (vendor_chunks vendor self text))).
  { rewrite Hrun. unfold trace_of. cbn [fst]. rewrite emitted_app.
    destruct k as [ | k]; [lia | ].
    destruct (vendor_chunks vendor self text) as [ | first rest];
      [cbn in Hlen; lia | ].
    cbn [firstn]. rewrite emitted_stream_events_fresh. reflexivity. }
  repeat split.
  - now rewrite Hrun.
  - now rewrite Hrun.
  - exact Hem.
  - rewrite Hem. cbn [filter is_stopped]. apply filter_is_stopped_audio.
Qed.

(** X10: a caller that iterates a call to its end is done after at most
    [N + 1] resumptions for a stream of [N] chunks: with that much fuel the
    iteration ends, normally or with the vendor's exception, and what it
    has caused is what [run_tts] describes. *)
Theorem iteration_ends_within_chunks_plus_one vendor text self fuel :
  (length (vendor_chunks vendor self text) < fuel)%nat ->
  let o := drain fuel (NotStarted vendor text) self in
  trace_of o = trace_of (run_tts vendor text self) /\
  self_of o = self /\
  result_of o =
    match vendor_error vendor self text with
    | None => Returned true
    | Some e => Raised e
    end.
Proof.
  intros Hfuel o. subst o. rewrite (drain_run_tts _ _ _ _ Hfuel).
  rewrite run_tts_run. unfold trace_of, self_of, result_of. cbn [fst snd].
  destruct (vendor_error vendor self text); repeat split; reflexivity.
Qed.

(** ** The adapter's lifetime, continued *)

Lemma step_requests (c : @Call VoiceSettings) (w : Session) :
  (_client (adapter (snd (step c w))) = _client (adapter w) /\
   _params (adapter (snd (step c w))) = _params (adapter w) /\
   _voice_settings (adapter (snd (step c w))) = _voice_settings (adapter w) /\
   _optimize_streaming_latency (adapter (snd (step c w)))
   = _optimize_streaming_latency (adapter w)) /\
  Forall (request_fixed_part (adapter w)) (generate_calls (fst (step c w))).
Proof.
  destruct c as [ | model | voice | vendor text | i]; cbn [step].
  - cbn. repeat split; constructor.
  - cbn. repeat split; constructor.
  - cbn. repeat split; constructor.
  - cbn. repeat split; constructor.
  - destruct (nth_error (generators w) i) as [g | ].
    + pose proof (anext_keeps_self g (adapter w)) as Hself.
      pose proof (generate_calls_anext g (adapter w)) as Hcalls.
      assert (Hfixed : Forall (request_fixed_part (adapter w))
                         (generate_calls (trace_of (__anext__ g (adapter w))))).
      { rewrite Hcalls. destruct g; repeat constructor. }
      destruct (__anext__ g (adapter w)) as [[t self'] [r | e]];
        unfold self_of, trace_of in Hself, Hfixed; cbn [fst snd] in Hself, Hfixed;
        subst self'; cbn [fst snd adapter]; repeat split; exact Hfixed.
    + cbn. repeat split; constructor.
Qed.

Lemma request_fixed_part_same self1 self2 call :
  _client self1 = _client self2 ->
  _params self1 = _params self2 ->
  _voice_settings self1 = _voice_settings self2 ->
  _optimize_streaming_latency self1 = _optimize_streaming_latency self2 ->
  request_fixed_part self1 call -> request_fixed_part self2 call.
Proof.
  unfold request_fixed_part. intros <- <- <- <- H. exact H.
Qed.

Lemma lifetime_requests (calls : list (@Call VoiceSettings)) :
  forall w : Session,
  (_client (adapter (snd (lifetime calls w))) = _client (adapter w) /\
   _params (adapter (snd (lifetime calls w))) = _params (adapter w) /\
   _voice_settings (adapter (snd (lifetime calls w))) = _voice_settings (adapter w) /\
   _optimize_streaming_latency (adapter (snd (lifetime calls w)))
   = _optimize_streaming_latency (adapter w)) /\
  Forall (request_fixed_part (adapter w)) (generate_calls (fst (lifetime calls w))).
Proof.
  induction calls as [ | c rest IH]; intros w; cbn [lifetime].
  - cbn. repeat split; constructor.
  - destruct (step_requests c w) as ((Hc & Hp & Hv & Ho) & Hcalls).
    destruct (step c w) as [t1 w1]. cbn [fst snd] in *.
    destruct (IH w1) as ((Hc' & Hp' & Hv' & Ho') & Hcalls').
    destruct (lifetime rest w1) as [t2 w2]. cbn [fst snd] in *.
    split; [repeat split; congruence | ].
    rewrite generate_calls_app. apply Forall_app. split; [exact Hcalls | ].
    eapply Forall_impl; [ | exact Hcalls'].
    intros call. apply request_fixed_part_same; assumption.
Qed.

(** X11: over the whole life of an adapter, whatever is called on it and
    in whatever order, every request sent to the vendor goes through the
    client made by the constructor, names the constructor's output format,
    voice settings and latency level and asks for a stream; the sample
    rate of that output format is the rate stored for the audio frames. *)
Theorem requests_keep_what_the_constructor_fixed
  api_key voice_id model (voice_settings : option VoiceSettings) params
  optimize_streaming_latency (calls : list Call) :
  let self0 :=
    __init__ api_key voice_id model voice_settings params
      optimize_streaming_latency in
  let t := fst (lifetime calls {| adapter := self0; generators := [] |}) in
  Forall (request_fixed_part self0) (generate_calls t) /\
  Forall
    (fun call =>
       sample_rate_from_output_format (req_output_format (snd call))
       = _sample_rate self0)
    (generate_calls t).
Proof.
  intros self0 t.
  destruct (lifetime_requests calls {| adapter := self0; generators := [] |})
    as [_ Hcalls].
  cbn [adapter] in Hcalls. fold t in Hcalls. split; [exact Hcalls | ].
  eapply Forall_impl; [ | exact Hcalls].
  intros call (_ & Hformat & _). rewrite Hformat. reflexivity.
Qed.

End AdapterExtras.

(** ** Loading the module *)

Lemma error_logs_app (t1 t2 : list LoadEvent) :
  error_logs (t1 ++ t2) = error_logs t1 ++ error_logs t2.
Proof. apply flat_map_app. Qed.

Lemma import_all_run (env : ImportEnv) (modules : list string) :
  snd (import_all env modules) =
  match first_failure env modules with
  | None => Returned tt
  | Some e => Raised e
  end /\
  error_logs (fst (import_all env modules)) = [].
Proof.
  induction modules as [ | module rest [IHr IHl]]; [split; reflexivity | ].
  cbn [import_all first_failure]. unfold load_bind, import_from.
  destruct (env module) as [e | ]; [split; reflexivity | ].
  destruct (import_all env rest) as [t r]. cbn [fst snd] in *.
  split; [exact IHr | ]. rewrite error_logs_app, IHl. reflexivity.
Qed.

Lemma load_module_after_plain_imports (classes : ClassTable) (env : ImportEnv) :
  first_failure env plain_imports = None ->
  snd (load_module classes env) = snd (import_client classes env) /\
  error_logs (fst (load_module classes env))
  = error_logs (fst (import_client classes env)).
Proof.
  intros Hplain. unfold load_module, load_bind.
  destruct (import_all_run env plain_imports) as [Hr Hl].
  rewrite Hplain in Hr.
  destruct (import_all env plain_imports) as [t r]. cbn [fst snd] in *. subst r.
  destruct (import_client classes env) as [t2 r2]. cbn [fst snd].
  split; [reflexivity | ]. rewrite error_logs_app, Hl. reflexivity.
Qed.

Lemma isinstance_own_class (classes : ClassTable) (e : Exception) :
  isinstance classes e (exc_type e) = true.
Proof. unfold isinstance. now rewrite String.eqb_refl. Qed.

(** X12: when every import before the [try] succeeds and importing
    [elevenlabs.client] raises a [ModuleNotFoundError] (of that class or
    of a subclass), loading the module logs two error lines, the
    exception's message and the install hint, and fails with a plain
    [Exception] whose message is ["Missing module: "] followed by the
    original message. *)
Theorem missing_client_module_is_reported
  (classes : ClassTable) (env : ImportEnv) (e : Exception) :
  first_failure env plain_imports = None ->
  env "elevenlabs.client" = Some e ->
  isinstance classes e "ModuleNotFoundError" = true ->
  snd (load_module classes env)
  = Raised {| exc_type := "Exception";
              exc_msg := ("Missing module: " ++ exc_msg e)%string |} /\
  error_logs (fst (load_module classes env))
  = [("Exception: " ++ exc_msg e)%string; install_hint].
Proof.
  intros Hplain Hclient Htype.
  destruct (load_module_after_plain_imports classes env Hplain) as [-> ->].
  unfold import_client, try_except_ModuleNotFoundError, import_from.
  rewrite Hclient, Htype. split; reflexivity.
Qed.

(** X13: every other import failure leaves the module load as raised and
    logs nothing: an exception from one of the imports before the [try]
    (a [ModuleNotFoundError] for [elevenlabs] itself included, which
    line 9 imports unguarded), and an exception from the guarded import
    that is not a [ModuleNotFoundError], neither of that class nor of a
    subclass.  When nothing fails the load succeeds silently. *)
Theorem other_import_failures_pass_unreported
  (classes : ClassTable) (env : ImportEnv) :
  (forall e,
     first_failure env plain_imports = Some e ->
     snd (load_module classes env) = Raised e /\
     error_logs (fst (load_module classes env)) = []) /\
  (forall e,
     first_failure env plain_imports = None ->
     env "elevenlabs.client" = Some e ->
     isinstance classes e "ModuleNotFoundError" = false ->
     snd (load_module classes env) = Raised e /\
     error_logs (fst (load_module classes env)) = []) /\
  (first_failure env plain_imports = None ->
   env "elevenlabs.client" = None ->
   snd (load_module classes env) = Returned tt /\
   error_logs (fst (load_module classes env)) = []).
Proof.
  split; [ | split].
  - intros e Hplain. unfold load_module, load_bind.
    destruct (import_all_run env plain_imports) as [Hr Hl].
    rewrite Hplain in Hr.
    destruct (import_all env plain_imports) as [t r]. cbn [fst snd] in *.
    subst r. split; [reflexivity | exact Hl].
  - intros e Hplain Hclient Htype.
    destruct (load_module_after_plain_imports classes env Hplain) as [-> ->].
    unfold import_client, try_except_ModuleNotFoundError, import_from.
    rewrite Hclient, Htype. split; reflexivity.
  - intros Hplain Hclient.
    destruct (load_module_after_plain_imports classes env Hplain) as [-> ->].
    unfold import_client, try_except_ModuleNotFoundError, import_from.
    rewrite Hclient. split; reflexivity.
Qed.

(** * Concrete runs, continued *)

Lemma recognized_format_spells_its_rate_witness :
  In "pcm_24000" ["pcm_16000"; "pcm_22050"; "pcm_24000"; "pcm_44100"] /\
  "pcm_24000" = ("pcm_" ++ str (sample_rate_from_output_format "pcm_24000"))%string.
Proof.
  assert (H : In "pcm_24000" ["pcm_16000"; "pcm_22050"; "pcm_24000"; "pcm_44100"]).
  { cbn. tauto. }
  split; [exact H | ].
  exact (proj1 recognized_format_spells_its_rate "pcm_24000" H).
Defined.

Lemma abandoned_generator_pushes_no_stopped_witness :
  (1 <= 2)%nat /\
  (2 <= length
          (vendor_chunks (vendor_of (stream_of [chunk1; chunk2; chunk3]))
             (@sample_service unit) "hello"))%nat /\
  emitted
    (trace_of
       (drain 2
          (NotStarted (vendor_of (stream_of [chunk1; chunk2; chunk3])) "hello")
          (@sample_service unit)))
  = [ TTSStartedFrame;
      AudioRawFrame chunk1 24000 1;
      AudioRawFrame chunk2 24000 1 ].
Proof.
  assert (H1 : (1 <= 2)%nat) by lia.
  assert (H2 : (2 <= length
                       (vendor_chunks
                          (vendor_of (stream_of [chunk1; chunk2; chunk3]))
                          (@sample_service unit) "hello"))%nat)
    by (cbn; lia).
  split; [exact H1 | split; [exact H2 | ]].
  exact (proj1 (proj2 (proj2 (abandoned_generator_pushes_no_stopped
                                (vendor_of (stream_of [chunk1; chunk2; chunk3]))
                                "hello" (@sample_service unit) 2%nat H1 H2)))).
Defined.

Lemma iteration_ends_within_chunks_plus_one_witness :
  (length
     (vendor_chunks (vendor_of (stream_of [chunk1; chunk2; chunk3]))
        (@sample_service unit) "hello") < 4)%nat /\
  result_of
    (drain 4
       (NotStarted (vendor_of (stream_of [chunk1; chunk2; chunk3])) "hello")
       (@sample_service unit))
  = Returned true.
Proof.
  assert (H : (length
                 (vendor_chunks (vendor_of (stream_of [chunk1; chunk2; chunk3]))
                    (@sample_service unit) "hello") < 4)%nat)
    by (cbn; lia).
  split; [exact H | ].
  exact (proj2 (proj2 (iteration_ends_within_chunks_plus_one
                         (vendor_of (stream_of [chunk1; chunk2; chunk3]))
                         "hello" (@sample_service unit) 4%nat H))).
Defined.

Lemma missing_client_module_is_reported_witness :
  first_failure client_module_missing plain_imports = None /\
  snd (load_module standard_classes client_module_missing)
  = Raised {| exc_type := "Exception";
              exc_msg := "Missing module: No module named 'elevenlabs.client'" |} /\
  isinstance standard_classes
    {| exc_type := "PackageNotFoundError";
       exc_msg := "No package metadata was found for elevenlabs" |}
    "ModuleNotFoundError"
  = true /\
  error_logs (fst (load_module standard_classes client_metadata_missing))
  = [ "Exception: No package metadata was found for elevenlabs";
      install_hint ].
Proof.
  split; [reflexivity | split; [ | split; [reflexivity | ]]].
  - exact (proj1 (missing_client_module_is_reported standard_classes
                    client_module_missing
                    {| exc_type := "ModuleNotFoundError";
                       exc_msg := "No module named 'elevenlabs.client'" |}
                    eq_refl eq_refl eq_refl)).
  - exact (proj2 (missing_client_module_is_reported standard_classes
                    client_metadata_missing
                    {| exc_type := "PackageNotFoundError";
                       exc_msg := "No package metadata was found for elevenlabs" |}
                    eq_refl eq_refl eq_refl)).
Defined.

Lemma other_import_failures_pass_unreported_witness :
  first_failure package_missing plain_imports
  = Some {| exc_type := "ModuleNotFoundError";
            exc_msg := "No module named 'elevenlabs'" |} /\
  snd (load_module standard_classes package_missing)
  = Raised {| exc_type := "ModuleNotFoundError";
              exc_msg := "No module named 'elevenlabs'" |} /\
  isinstance standard_classes
    {| exc_type := "ImportError";
       exc_msg := "cannot import name 'AsyncElevenLabs'" |}
    "ModuleNotFoundError"
  = false /\
  snd (load_module standard_classes client_name_missing)
  = Raised {| exc_type := "ImportError";
              exc_msg := "cannot import name 'AsyncElevenLabs'" |}.
Proof.
  split; [reflexivity | split; [ | split; [reflexivity | ]]].
  - exact (proj1 (proj1 (other_import_failures_pass_unreported
                           standard_classes package_missing)
                    {| exc_type := "ModuleNotFoundError";
                       exc_msg := "No module named 'elevenlabs'" |} eq_refl)).
  - exact (proj1 (proj1 (proj2 (other_import_failures_pass_unreported
                                  standard_classes client_name_missing))
                    {| exc_type := "ImportError";
                       exc_msg := "cannot import name 'AsyncElevenLabs'" |}
                    eq_refl eq_refl eq_refl)).
Defined.
